(** * geopyspark.geotrellis.geotiff: the [get] entry point

    A shallow embedding of [geotiff.get] and [_validate_s3_credentials]
    (src/geopyspark/geotrellis/geotiff.py) together with the Python values,
    dictionaries, exceptions and the [with] statement they rely on. *)

From Stdlib Require Import ZArith Ascii String DecimalString DecimalPos DecimalZ.
From stdpp Require Import gmap strings list fin_maps.

Local Open Scope string_scope.
Local Open Scope list_scope.
Set Warnings "-register-all".

(** ** Python values *)

(** The two members of [geopyspark.geotrellis.constants.LayerType]. *)
Inductive LayerType := SPATIAL | SPACETIME.

(** The values that reach [get]: [None], booleans, integers, text, lists,
    tuples, [LayerType] members and [Credentials] bundles. *)
Inductive PyVal :=
| PNone
| PBool (b : bool)
| PInt (z : Z)
| PStr (s : string)
| PList (items : list PyVal)
| PTuple (items : list PyVal)
| PLayerType (t : LayerType)
| PCredentials (access_key secret_key : string).

(** [v is not None] *)
Definition is_not_None (v : PyVal) : bool :=
  match v with PNone => false | _ => true end.

(** [bool(v)]: what an [if v] or [v and ...] tests. *)
Definition py_truthy (v : PyVal) : bool :=
  match v with
  | PNone => false
  | PBool b => b
  | PInt z => negb (z =? 0)%Z
  | PStr s => negb (String.eqb s "")
  | PList items | PTuple items => match items with [] => false | _ => true end
  | PLayerType _ => true
  | PCredentials _ _ => true
  end.

(** [type(v).__name__] *)
Definition type_name (v : PyVal) : string :=
  match v with
  | PNone => "NoneType"
  | PBool _ => "bool"
  | PInt _ => "int"
  | PStr _ => "str"
  | PList _ => "list"
  | PTuple _ => "tuple"
  | PLayerType _ => "LayerType"
  | PCredentials _ _ => "Credentials"
  end.

(** *** [str] and [repr] *)

Definition dquote : ascii := Ascii.ascii_of_N 34.
Definition squote : ascii := Ascii.ascii_of_N 39.
Definition backslash : ascii := Ascii.ascii_of_N 92.

Fixpoint has_char (c : ascii) (s : string) : bool :=
  match s with
  | EmptyString => false
  | String d r => Ascii.eqb c d || has_char c r
  end.

Definition hex_digit (n : N) : ascii :=
  if (n <? 10)%N then Ascii.ascii_of_N (48 + n) else Ascii.ascii_of_N (87 + n).

Definition hex_escape (n : N) : string :=
  String backslash (String "x" (String (hex_digit (n / 16)) (String (hex_digit (n mod 16)) ""))).

(** One character of [repr] on text, for code points below 256: the
    delimiter and the backslash are escaped, control and other unprintable
    characters are written in hexadecimal. *)
Definition repr_char (q c : ascii) : string :=
  let n := Ascii.N_of_ascii c in
  if Ascii.eqb c q || Ascii.eqb c backslash then String backslash (String c "")
  else if (n =? 9)%N then String backslash "t"
  else if (n =? 10)%N then String backslash "n"
  else if (n =? 13)%N then String backslash "r"
  else if (n <? 32)%N || (n =? 127)%N then hex_escape n
  else if (n <? 127)%N then String c ""
  else if (n <=? 160)%N || (n =? 173)%N then hex_escape n
  else String c "".

Fixpoint repr_chars (q : ascii) (s : string) : string :=
  match s with
  | EmptyString => ""
  | String c r => repr_char q c +:+ repr_chars q r
  end.

(** [repr(s)] for text: single quotes unless the text has a single quote
    and no double quote. *)
Definition repr_str (s : string) : string :=
  let q := if has_char squote s && negb (has_char dquote s) then dquote else squote in
  String q (repr_chars q s +:+ String q "").

Definition str_int (z : Z) : string := NilZero.string_of_int (Z.to_int z).

Definition member_name (t : LayerType) : string :=
  match t with SPATIAL => "SPATIAL" | SPACETIME => "SPACETIME" end.

(** The value of a member, which is also the text form a caller may pass. *)
Definition member_value (t : LayerType) : string :=
  match t with SPATIAL => "spatial" | SPACETIME => "spacetime" end.

Fixpoint join (sep : string) (parts : list string) : string :=
  match parts with
  | [] => ""
  | [p] => p
  | p :: rest => p +:+ sep +:+ join sep rest
  end.

Fixpoint py_repr (v : PyVal) : string :=
  match v with
  | PNone => "None"
  | PBool b => if b then "True" else "False"
  | PInt z => str_int z
  | PStr s => repr_str s
  | PList items => "[" +:+ join ", " (map py_repr items) +:+ "]"
  | PTuple items =>
      "(" +:+ join ", " (map py_repr items)
          +:+ (match items with [_] => "," | _ => "" end) +:+ ")"
  | PLayerType t =>
      "<LayerType." +:+ member_name t +:+ ": " +:+ repr_str (member_value t) +:+ ">"
  | PCredentials a s =>
      "Credentials(access_key=" +:+ repr_str a +:+ ", secret_key=" +:+ repr_str s +:+ ")"
  end.

(** [str(v)], also what ['{}'.format(v)] writes. *)
Definition py_str (v : PyVal) : string :=
  match v with
  | PStr s => s
  | PLayerType t => "LayerType." +:+ member_name t
  | _ => py_repr v
  end.

(** *** [str.split] with a one-character separator *)

Fixpoint split_on (sep : ascii) (s : string) : list string :=
  match s with
  | EmptyString => [""]
  | String c r =>
      if Ascii.eqb c sep then "" :: split_on sep r
      else match split_on sep r with
           | h :: t => String c h :: t
           | [] => [String c ""]
           end
  end.

(** ** Exceptions and results *)

Inductive Exn :=
| KeyError (key : string)
| ValueError (value : PyVal) (enum : string)
| AttributeError (type attr : string)
| IndexError
| RuntimeError (msg : string)
| Foreign (cls msg : string).

Inductive Res (A : Type) :=
| Ok (a : A)
| Raise (e : Exn).
Arguments Ok {A} a.
Arguments Raise {A} e.

#[global] Instance Res_bind : MBind Res :=
  fun A B k r => match r with Ok a => k a | Raise e => Raise e end.
#[global] Instance Res_ret : MRet Res := fun A a => Ok a.

(** ** Dictionaries *)

(** A dictionary with text keys. *)
Abbreviation Dict := (gmap string PyVal).

(** [{k: v for k, v in items}]: later items overwrite earlier ones. *)
Definition dict_of_items (items : list (string * PyVal)) : Dict :=
  fold_left (fun d kv => <[kv.1 := kv.2]> d) items ∅.

(** [d.pop(k)]: the value and the dictionary without the key, or
    [KeyError]. *)
Definition pop (k : string) (d : Dict) : Res (PyVal * Dict) :=
  match d !! k with
  | Some v => Ok (v, delete k d)
  | None => Raise (KeyError k)
  end.

(** [v.split(":")]: only text has the method. *)
Definition py_split (v : PyVal) (sep : ascii) : Res (list string) :=
  match v with
  | PStr s => Ok (split_on sep s)
  | _ => Raise (AttributeError (type_name v) "split")
  end.

(** [l[0]] *)
Definition item0 (l : list string) : Res string :=
  match l with
  | x :: _ => Ok x
  | [] => Raise IndexError
  end.

(** ** Collaborators from modules outside this file *)

(** Modelled from the spec: the constructor call [LayerType(tag)] of
    [geopyspark.geotrellis.constants], which is not among the sources. It
    takes a member or its text form and fails with an invalid-enumeration
    error on anything else (spec 4.1). *)
Definition LayerType_of (tag : PyVal) : Res LayerType :=
  match tag with
  | PLayerType t => Ok t
  | PStr s =>
      if String.eqb s "spatial" then Ok SPATIAL
      else if String.eqb s "spacetime" then Ok SPACETIME
      else Raise (ValueError tag "LayerType")
  | _ => Raise (ValueError tag "LayerType")
  end.

(** The shared backend-credential configuration: one slot per backend
    scheme, absent when no credentials are configured. *)
Abbreviation Config := (gmap string PyVal).

(** What a [with] statement needs of its manager: [__enter__] and
    [__exit__], both acting on the shared configuration; [__exit__] does
    not swallow the exception of the body. *)
Record ContextManager := {
  cm_guard : Type;
  cm_enter : Config -> Config * Res cm_guard;
  cm_exit : cm_guard -> Config -> Config * Res unit
}.

(** Modelled from the spec: [set_s3_credentials(credentials, uri_type)] of
    [geopyspark.geotrellis.s3], which is not among the sources. Without
    credentials the scope does nothing; with credentials it installs them
    in the slot of the backend for the duration of the scope and puts the
    previous content of the slot back afterwards, [unset] included
    (spec 4.3). *)
Definition set_s3_credentials_spec (credentials : PyVal) (uri_type : string) : ContextManager :=
  {| cm_guard := option (option PyVal);
     cm_enter := fun cfg =>
       match credentials with
       | PNone => (cfg, Ok None)
       | _ => (<[uri_type := credentials]> cfg, Ok (Some (cfg !! uri_type)))
       end;
     cm_exit := fun saved cfg =>
       match saved with
       | None => (cfg, Ok tt)
       | Some (Some previous) => (<[uri_type := previous]> cfg, Ok tt)
       | Some None => (delete uri_type cfg, Ok tt)
       end |}.

(** ** The observable run of a call *)

Inductive Event :=
| EvSetCredentials (credentials : PyVal) (uri_type : string)
| EvEnter
| EvExit
| EvEngine (key : string) (uris : list PyVal) (options : Dict) (partition_bytes : string).

Record World := {
  w_config : Config;
  w_trace : list Event
}.

Definition emit (e : Event) (w : World) : World :=
  {| w_config := w_config w; w_trace := w_trace w ++ [e] |}.

Definition on_config {A} (f : Config -> Config * Res A) (w : World) : World * Res A :=
  let '(cfg, r) := f (w_config w) in
  ({| w_config := cfg; w_trace := w_trace w |}, r).

(** [with cm: body]. When [__enter__] raises, neither the body nor
    [__exit__] runs; once it has returned, [__exit__] runs after the body
    whether the body returned or raised, and an exception of [__exit__]
    replaces the outcome of the body. *)
Definition with_ {A} (cm : ContextManager) (body : World -> World * Res A)
    (w : World) : World * Res A :=
  match on_config (cm_enter cm) w with
  | (w1, Raise e) => (w1, Raise e)
  | (w1, Ok guard) =>
      let '(w2, outcome) := body (emit EvEnter w1) in
      match on_config (cm_exit cm guard) (emit EvExit w2) with
      | (w3, Ok _) => (w3, outcome)
      | (w3, Raise e) => (w3, Raise e)
      end
  end.

(** ** [geotiff.get] *)

(** The parameters of [get], each bound to the value of the call or to its
    default. *)
Record Args := {
  layer_type : PyVal;
  uri : PyVal;
  crs : PyVal;
  max_tile_size : PyVal;
  num_partitions : PyVal;
  chunk_size : PyVal;
  partition_bytes : PyVal;
  time_tag : PyVal;
  time_format : PyVal;
  delimiter : PyVal;
  s3_client : PyVal;
  s3_credentials : PyVal
}.

(** [locals().items()] on entry to the body: the twelve parameters. *)
Definition locals (a : Args) : list (string * PyVal) :=
  [ ("layer_type", layer_type a);
    ("uri", uri a);
    ("crs", crs a);
    ("max_tile_size", max_tile_size a);
    ("num_partitions", num_partitions a);
    ("chunk_size", chunk_size a);
    ("partition_bytes", partition_bytes a);
    ("time_tag", time_tag a);
    ("time_format", time_format a);
    ("delimiter", delimiter a);
    ("s3_client", s3_client a);
    ("s3_credentials", s3_credentials a) ].

(** The text of the [RuntimeError] of [_validate_s3_credentials]. *)
Definition not_s3_message (uri : PyVal) : string :=
  "S3 credentials were provided to geotiff.get, but an AWS S3 URI "
  +:+ "was not specified (URI: " +:+ py_str uri +:+ ")".

(** Line 89: [{k: v for k, v in locals().items() if v is not None}]. *)
Definition inputs_of (a : Args) : Dict :=
  dict_of_items (List.filter (fun kv => is_not_None kv.2) (locals a)).

(** The parameters that [get] takes out of the dictionary and passes on
    their own (lines 94, 95, 97 and 101). *)
Definition consumed : list string :=
  ["layer_type"; "partition_bytes"; "uri"; "s3_credentials"].

(** The dictionary of line 89 without the consumed keys. *)
Definition options_of (a : Args) : Dict :=
  delete "s3_credentials"
    (delete "uri" (delete "partition_bytes" (delete "layer_type" (inputs_of a)))).

(** The characters of [s] before the first [sep], all of [s] when it has
    none. *)
Fixpoint prefix_before (sep : ascii) (s : string) : string :=
  match s with
  | EmptyString => ""
  | String c r => if Ascii.eqb c sep then "" else String c (prefix_before sep r)
  end.

Section Get.

(** The handle the engine returns. *)
Context {SRDD : Type}.

(** [LayerType._key_name], of the constants module. *)
Variable key_name : LayerType -> bool -> string.

(** [is_s3_uri], of the s3 module. *)
Variable is_s3_uri : PyVal -> Res bool.

(** [set_s3_credentials], of the s3 module: the manager it builds. *)
Variable set_s3_credentials : PyVal -> string -> ContextManager.

(** [GeoTiffRDD.get] behind the gateway; it may read and write the shared
    configuration, and returns a handle or raises. *)
Variable geotiff_rdd_get :
  string -> list PyVal -> Dict -> string -> Config -> Config * Res SRDD.

(** The constructor call [RasterLayer(layer_type, srdd)] of line 118: the
    two arguments it is given. What the class of the layer module keeps of
    them is outside this file. *)
Record RasterLayer := {
  rl_layer_type : PyVal;
  rl_srdd : SRDD
}.

(** Lines 121 to 126: [if credentials and not is_s3_uri(uri): raise ...].
    [and] stops at falsy credentials, so [is_s3_uri] is asked only for
    truthy ones. *)
Definition _validate_s3_credentials (uri credentials : PyVal) : Res unit :=
  if py_truthy credentials then
    s3 ← is_s3_uri uri;
    if negb s3 then Raise (RuntimeError (not_s3_message uri)) else Ok tt
  else Ok tt.

(** The local variables after line 98. *)
Record Resolved := {
  r_key : string;
  r_partition_bytes : string;
  r_uri : PyVal;
  r_uris : list PyVal;
  r_inputs : Dict
}.

(** Lines 89 to 98 of [get]: the option dictionary, the backend key, the
    partition size as text and the list of URIs. Lines 91 and 92 fetch the
    session and the engine class of the gateway; they are taken to
    succeed and leave no trace here. *)
Definition get_resolve (a : Args) : Res Resolved :=
  let inputs := inputs_of a in
  '(layer_type, inputs) ← pop "layer_type" inputs;
  t ← LayerType_of layer_type;
  let key := key_name t false in
  '(partition_bytes, inputs) ← pop "partition_bytes" inputs;
  let partition_bytes := py_str partition_bytes in
  '(uri, inputs) ← pop "uri" inputs;
  let uris := match uri with PList items => items | _ => [uri] end in
  Ok {| r_key := key; r_partition_bytes := partition_bytes;
        r_uri := uri; r_uris := uris; r_inputs := inputs |}.

(** The local variables after line 107. *)
Record Frame := {
  f_key : string;
  f_partition_bytes : string;
  f_uris : list PyVal;
  f_inputs : Dict;
  f_s3_credentials : PyVal;
  f_uri_type : string
}.

(** Lines 100 to 107 of [get]: the credentials are taken out of the
    dictionary and validated when they are there, then the scheme is
    split off the [uri] argument. *)
Definition get_check (r : Resolved) : Res Frame :=
  '(s3_credentials, inputs) ←
    match pop "s3_credentials" (r_inputs r) with
    | Raise (KeyError _) => Ok (PNone, r_inputs r)
    | Raise e => Raise e
    | Ok (s3_credentials, inputs) =>
        _ ← _validate_s3_credentials (r_uri r) s3_credentials;
        Ok (s3_credentials, inputs)
    end;
  parts ← py_split (r_uri r) ":";
  uri_type ← item0 parts;
  Ok {| f_key := r_key r; f_partition_bytes := r_partition_bytes r;
        f_uris := r_uris r; f_inputs := inputs;
        f_s3_credentials := s3_credentials; f_uri_type := uri_type |}.

Definition get_frame (a : Args) : Res Frame :=
  r ← get_resolve a; get_check r.

(** [geotiff_rdd.get(pysc._jsc.sc(), key, uris, inputs, partition_bytes)] *)
Definition call_engine (f : Frame) (w : World) : World * Res SRDD :=
  let w := emit (EvEngine (f_key f) (f_uris f) (f_inputs f) (f_partition_bytes f)) w in
  on_config (geotiff_rdd_get (f_key f) (f_uris f) (f_inputs f) (f_partition_bytes f)) w.

(** [get]: lines 89 to 107 as above, then the engine call inside the
    credential scope (lines 109 to 116) and the result (line 118). A call
    that raises before line 109 leaves the world as it found it. *)
Definition get (a : Args) (w : World) : World * Res RasterLayer :=
  match get_frame a with
  | Raise e => (w, Raise e)
  | Ok f =>
      let w := emit (EvSetCredentials (f_s3_credentials f) (f_uri_type f)) w in
      let cm := set_s3_credentials (f_s3_credentials f) (f_uri_type f) in
      match with_ cm (call_engine f) w with
      | (w, Ok srdd) => (w, Ok {| rl_layer_type := layer_type a; rl_srdd := srdd |})
      | (w, Raise e) => (w, Raise e)
      end
  end.

(** The frame [get] reaches the credential scope with, for a text [uri]. *)
Definition frame_of (a : Args) (t : LayerType) (s : string) : Frame :=
  {| f_key := key_name t false;
     f_partition_bytes := py_str (partition_bytes a);
     f_uris := [PStr s];
     f_inputs := options_of a;
     f_s3_credentials := s3_credentials a;
     f_uri_type := prefix_before ":" s |}.

(** What a call that got past line 107 has added to the trace: the
    construction of the scope, and when [__enter__] returned, the scope
    around exactly one engine call. *)
Definition scope_events (f : Frame) (entered : bool) : list Event :=
  EvSetCredentials (f_s3_credentials f) (f_uri_type f)
  :: (if entered
      then [EvEnter;
            EvEngine (f_key f) (f_uris f) (f_inputs f) (f_partition_bytes f);
            EvExit]
      else []).

End Get.

Arguments RasterLayer SRDD : clear implicits.
Arguments Build_RasterLayer {SRDD} _ _.

(** ** Vocabulary of the properties *)

(** The scheme token as the specification describes it for a list of URIs:
    the text form of the list, cut at the first colon. *)
Definition scheme_of_text_form (uri : PyVal) : Res string :=
  item0 (split_on ":" (py_str uri)).

Definition is_enter (e : Event) : bool :=
  match e with EvEnter => true | _ => false end.

Definition is_exit (e : Event) : bool :=
  match e with EvExit => true | _ => false end.

Definition count (p : Event -> bool) (tr : list Event) : nat :=
  length (List.filter p tr).

(** A world with the given configuration and nothing observed yet. *)
Definition fresh (cfg : Config) : World :=
  {| w_config := cfg; w_trace := [] |}.


(** The defaults of the signature that come from the constants module. *)
Record Defaults := {
  DEFAULT_MAX_TILE_SIZE : PyVal;
  DEFAULT_PARTITION_BYTES : PyVal;
  DEFAULT_CHUNK_SIZE : PyVal;
  DEFAULT_GEOTIFF_TIME_TAG : PyVal;
  DEFAULT_GEOTIFF_TIME_FORMAT : PyVal;
  DEFAULT_S3_CLIENT : PyVal
}.

(** [get(layer_type, uri)]: every other parameter at its default. *)
Definition call (d : Defaults) (layer_type uri : PyVal) : Args :=
  {| layer_type := layer_type; uri := uri; crs := PNone;
     max_tile_size := DEFAULT_MAX_TILE_SIZE d; num_partitions := PNone;
     chunk_size := DEFAULT_CHUNK_SIZE d;
     partition_bytes := DEFAULT_PARTITION_BYTES d;
     time_tag := DEFAULT_GEOTIFF_TIME_TAG d;
     time_format := DEFAULT_GEOTIFF_TIME_FORMAT d;
     delimiter := PNone; s3_client := DEFAULT_S3_CLIENT d;
     s3_credentials := PNone |}.

(** ** Concrete collaborators for the examples *)

(** Modelled from the spec: [LayerType._key_name(False)] of the constants
    module, which is not among the sources. The spec only says that it
    yields the canonical key of the spatial or of the space-time variant;
    the two names below stand for them. *)
Definition key_name_example (t : LayerType) (is_boundable : bool) : string :=
  match t, is_boundable with
  | SPATIAL, false => "ProjectedExtent"
  | SPACETIME, false => "TemporalProjectedExtent"
  | SPATIAL, true => "SpatialKey"
  | SPACETIME, true => "SpaceTimeKey"
  end.

(** Modelled from the spec: [is_s3_uri] of the s3 module, which is not
    among the sources: whether the scheme of the URI is one of the
    object store (spec 4.3, 6). *)
Definition is_s3_uri_example (uri : PyVal) : Res bool :=
  match uri with
  | PStr s =>
      let scheme := prefix_before ":" s in
      Ok (String.eqb scheme "s3" || String.eqb scheme "s3a" || String.eqb scheme "s3n")
  | _ => Ok false
  end.

(** An engine that returns handle 1 and leaves the configuration alone. *)
Definition engine_returns (key : string) (uris : list PyVal) (options : Dict)
    (partition_bytes : string) (cfg : Config) : Config * Res Z :=
  (cfg, Ok 1%Z).

(** An engine that fails, after overwriting the slot of the [s3] backend. *)
Definition engine_raises (key : string) (uris : list PyVal) (options : Dict)
    (partition_bytes : string) (cfg : Config) : Config * Res Z :=
  (<["s3" := PStr "clobbered"]> cfg, Raise (Foreign "Py4JJavaError" "file not found")).

(** [get(layer_type, uri, max_tile_size=0, time_tag="",
    partition_bytes=partition_bytes, s3_client="default",
    s3_credentials=credentials)] with [None] for every other option. *)
Definition example_call (layer_type uri partition_bytes credentials : PyVal) : Args :=
  {| layer_type := layer_type; uri := uri; crs := PNone;
     max_tile_size := PInt 0; num_partitions := PNone; chunk_size := PNone;
     partition_bytes := partition_bytes; time_tag := PStr ""; time_format := PNone;
     delimiter := PNone; s3_client := PStr "default";
     s3_credentials := credentials |}.

Definition example_args (uri credentials : PyVal) : Args :=
  example_call (PStr "spatial") uri (PInt 128) credentials.

Definition example_credentials : PyVal := PCredentials "AKIA" "secret".

(** A configuration in which the [s3] backend already has credentials. *)
Definition example_config : Config := {[ "s3" := PStr "ambient" ]}.

(** [get] with the collaborators above. *)
Definition example_get (engine : string -> list PyVal -> Dict -> string -> Config -> Config * Res Z) :=
  get key_name_example is_s3_uri_example set_s3_credentials_spec engine.

Definition example_frame : Args -> Res Frame :=
  get_frame key_name_example is_s3_uri_example.

(** ** Vocabulary of the further properties *)


(** The parameters of [get] that stay in the dictionary of line 89. *)
Definition option_names : list string :=
  ["crs"; "max_tile_size"; "num_partitions"; "chunk_size";
   "time_tag"; "time_format"; "delimiter"; "s3_client"].


(** ** Calls and the binding of the signature *)

(** A call of [get] as the caller writes it: the two required arguments
    and, for each optional parameter, the value given or nothing. *)
Record Call := {
  given_layer_type : PyVal;
  given_uri : PyVal;
  given_crs : option PyVal;
  given_max_tile_size : option PyVal;
  given_num_partitions : option PyVal;
  given_chunk_size : option PyVal;
  given_partition_bytes : option PyVal;
  given_time_tag : option PyVal;
  given_time_format : option PyVal;
  given_delimiter : option PyVal;
  given_s3_client : option PyVal;
  given_s3_credentials : option PyVal
}.

(** Lines 18 to 29: each parameter is bound to the value given, or to the
    default of the signature when none is given. *)
Definition bind (d : Defaults) (c : Call) : Args :=
  {| layer_type := given_layer_type c;
     uri := given_uri c;
     crs := default PNone (given_crs c);
     max_tile_size := default (DEFAULT_MAX_TILE_SIZE d) (given_max_tile_size c);
     num_partitions := default PNone (given_num_partitions c);
     chunk_size := default (DEFAULT_CHUNK_SIZE d) (given_chunk_size c);
     partition_bytes := default (DEFAULT_PARTITION_BYTES d) (given_partition_bytes c);
     time_tag := default (DEFAULT_GEOTIFF_TIME_TAG d) (given_time_tag c);
     time_format := default (DEFAULT_GEOTIFF_TIME_FORMAT d) (given_time_format c);
     delimiter := default PNone (given_delimiter c);
     s3_client := default (DEFAULT_S3_CLIENT d) (given_s3_client c);
     s3_credentials := default PNone (given_s3_credentials c) |}.

(** What the caller gave for the eight option parameters. *)
Definition given_options (c : Call) : list (string * option PyVal) :=
  [ ("crs", given_crs c);
    ("max_tile_size", given_max_tile_size c);
    ("num_partitions", given_num_partitions c);
    ("chunk_size", given_chunk_size c);
    ("time_tag", given_time_tag c);
    ("time_format", given_time_format c);
    ("delimiter", given_delimiter c);
    ("s3_client", given_s3_client c) ].

(** The defaults of the signature for the eight option parameters. *)
Definition default_options (d : Defaults) : list (string * PyVal) :=
  [ ("crs", PNone);
    ("max_tile_size", DEFAULT_MAX_TILE_SIZE d);
    ("num_partitions", PNone);
    ("chunk_size", DEFAULT_CHUNK_SIZE d);
    ("time_tag", DEFAULT_GEOTIFF_TIME_TAG d);
    ("time_format", DEFAULT_GEOTIFF_TIME_FORMAT d);
    ("delimiter", PNone);
    ("s3_client", DEFAULT_S3_CLIENT d) ].

(** [get(layer_type, uri)] as a call: nothing else given. *)
Definition plain_call (layer_type uri : PyVal) : Call :=
  {| given_layer_type := layer_type; given_uri := uri;
     given_crs := None; given_max_tile_size := None;
     given_num_partitions := None; given_chunk_size := None;
     given_partition_bytes := None; given_time_tag := None;
     given_time_format := None; given_delimiter := None;
     given_s3_client := None; given_s3_credentials := None |}.

(** The constants of [geopyspark.geotrellis.constants] that the signature
    names. The module is not among the sources; the values are those of
    the GeoPySpark release. The docstring of [get] sets [None] apart from
    the default of [max_tile_size] (lines 45 to 49), and line 95 needs a
    [partition_bytes] it can take out of the dictionary, so these
    defaults are values other than [None]. *)
Definition release_defaults : Defaults :=
  {| DEFAULT_MAX_TILE_SIZE := PInt 256;
     DEFAULT_PARTITION_BYTES := PInt 1343225;
     DEFAULT_CHUNK_SIZE := PInt 65536;
     DEFAULT_GEOTIFF_TIME_TAG := PStr "TIFFTAG_DATETIME";
     DEFAULT_GEOTIFF_TIME_FORMAT := PStr "yyyy:MM:dd HH:mm:ss";
     DEFAULT_S3_CLIENT := PStr "default" |}.

(** * Properties *)

(** ** The dictionary of line 89 *)

Lemma dict_of_items_reverse (l : list (string * PyVal)) :
  dict_of_items l = list_to_map (reverse l).
Proof.
  unfold dict_of_items, reverse. rewrite <- rev_alt, <- fold_left_rev_right.
  generalize (rev l) as r. intros r.
  induction r as [|[k v] r IH]; simpl; [done|]. by rewrite IH.
Qed.

Lemma locals_NoDup a : NoDup (locals a).*1.
Proof. simpl. by apply (bool_decide_unpack _). Qed.

Lemma filter_keys_NoDup (p : PyVal -> bool) (l : list (string * PyVal)) :
  NoDup l.*1 -> NoDup (List.filter (fun kv => p kv.2) l).*1.
Proof.
  induction l as [|[k v] l IH]; simpl; [done|].
  rewrite NoDup_cons. intros [Hk Hl]. destruct (p v); simpl; [|by auto].
  rewrite NoDup_cons. split; [|by auto].
  intros Hin. apply Hk. apply list_elem_of_fmap in Hin as [[k2 v2] [-> Hin]].
  apply list_elem_of_In, filter_In in Hin as [Hin _]. apply list_elem_of_In in Hin.
  apply list_elem_of_fmap. by exists (k2, v2).
Qed.

Lemma inputs_of_Some a k v :
  inputs_of a !! k = Some v <-> (k, v) ∈ locals a /\ v <> PNone.
Proof.
  unfold inputs_of. rewrite dict_of_items_reverse, <- elem_of_list_to_map.
  - rewrite elem_of_reverse, list_elem_of_In, filter_In, <- list_elem_of_In. simpl.
    destruct v; simpl; intuition congruence.
  - rewrite fmap_reverse, reverse_Permutation.
    apply filter_keys_NoDup, locals_NoDup.
Qed.

Lemma inputs_of_lookup a k :
  inputs_of a !! k =
    match (list_to_map (locals a) : Dict) !! k with
    | Some v => if is_not_None v then Some v else None
    | None => None
    end.
Proof.
  apply option_eq. intros v. rewrite inputs_of_Some.
  rewrite (elem_of_list_to_map (M:=gmap string)) by apply locals_NoDup.
  destruct (_ !! k) as [v'|]; [|split; [intros [? _]|]; congruence].
  destruct v'; simpl; (split; [intros [[= <-] ?] | intros [= <-]]); done.
Qed.

Lemma options_of_lookup a k :
  options_of a !! k = if bool_decide (k ∈ consumed) then None else inputs_of a !! k.
Proof.
  unfold options_of, consumed. case_bool_decide as Hk.
  - rewrite !lookup_delete. repeat case_decide; try done.
    rewrite !elem_of_cons, elem_of_nil in Hk. intuition congruence.
  - rewrite !elem_of_cons, elem_of_nil in Hk.
    rewrite !lookup_delete_ne; [done|..]; intros <-; apply Hk; auto.
Qed.

(** ** Splitting at the first separator *)

Lemma split_on_head sep s : item0 (split_on sep s) = Ok (prefix_before sep s).
Proof.
  induction s as [|c r IH]; simpl; [done|].
  destruct (Ascii.eqb c sep); [done|].
  destruct (split_on sep r) as [|h t]; simpl in *; [done|]. by inversion IH.
Qed.



Lemma LayerType_of_not_None v t : LayerType_of v = Ok t -> is_not_None v = true.
Proof. by destruct v. Qed.

Lemma is_not_None_true v : is_not_None v = true <-> v <> PNone.
Proof. destruct v; simpl; split; congruence. Qed.

(** ** The steps of [get] before the credential scope *)

Section Facts.

Context {SRDD : Type}.
Variable key_name : LayerType -> bool -> string.
Variable is_s3_uri : PyVal -> Res bool.
Variable set_s3_credentials : PyVal -> string -> ContextManager.
Variable geotiff_rdd_get :
  string -> list PyVal -> Dict -> string -> Config -> Config * Res SRDD.

Local Abbreviation validate := (_validate_s3_credentials is_s3_uri).
Local Abbreviation resolve := (get_resolve key_name).
Local Abbreviation frame := (get_frame key_name is_s3_uri).
Local Abbreviation run := (get key_name is_s3_uri set_s3_credentials geotiff_rdd_get).

Lemma get_resolve_eq a :
  resolve a =
    if is_not_None (layer_type a) then
      t ← LayerType_of (layer_type a);
      if is_not_None (partition_bytes a) then
        if is_not_None (uri a) then
          Ok {| r_key := key_name t false;
                r_partition_bytes := py_str (partition_bytes a);
                r_uri := uri a;
                r_uris := match uri a with PList items => items | _ => [uri a] end;
                r_inputs := delete "uri" (delete "partition_bytes"
                              (delete "layer_type" (inputs_of a))) |}
        else Raise (KeyError "uri")
      else Raise (KeyError "partition_bytes")
    else Raise (KeyError "layer_type").
Proof.
  unfold get_resolve, pop. rewrite inputs_of_lookup.
  change ((list_to_map (locals a) : Dict) !! "layer_type") with (Some (layer_type a)).
  cbv beta iota.
  destruct (is_not_None (layer_type a)); simpl; [|done].
  destruct (LayerType_of (layer_type a)) as [t|e]; simpl; [|done].
  rewrite lookup_delete_ne by done. rewrite inputs_of_lookup.
  change ((list_to_map (locals a) : Dict) !! "partition_bytes")
    with (Some (partition_bytes a)).
  cbv beta iota.
  destruct (is_not_None (partition_bytes a)); simpl; [|done].
  rewrite !lookup_delete_ne by done. rewrite inputs_of_lookup.
  change ((list_to_map (locals a) : Dict) !! "uri") with (Some (uri a)).
  cbv beta iota.
  destruct (is_not_None (uri a)); simpl; done.
Qed.

Lemma get_check_eq a r :
  r_inputs r = delete "uri" (delete "partition_bytes" (delete "layer_type" (inputs_of a))) ->
  get_check is_s3_uri r =
    _ ← validate (r_uri r) (s3_credentials a);
    parts ← py_split (r_uri r) ":";
    uri_type ← item0 parts;
    Ok {| f_key := r_key r; f_partition_bytes := r_partition_bytes r;
          f_uris := r_uris r; f_inputs := options_of a;
          f_s3_credentials := s3_credentials a; f_uri_type := uri_type |}.
Proof.
  intros Hin. unfold get_check, pop. rewrite Hin.
  rewrite !lookup_delete_ne by done. rewrite inputs_of_lookup.
  change ((list_to_map (locals a) : Dict) !! "s3_credentials")
    with (Some (s3_credentials a)).
  cbv beta iota.
  destruct (is_not_None (s3_credentials a)) eqn:Hc; simpl.
  - destruct (validate (r_uri r) (s3_credentials a)) as [[]|e]; simpl; done.
  - destruct (s3_credentials a) eqn:Hs; try discriminate. simpl.
    unfold options_of. rewrite (delete_id _ "s3_credentials"); [done|].
    rewrite !lookup_delete_ne by done. rewrite inputs_of_lookup.
    change ((list_to_map (locals a) : Dict) !! "s3_credentials")
      with (Some (s3_credentials a)).
    by rewrite Hs.
Qed.

Lemma get_frame_eq a :
  frame a =
    r ← resolve a;
    _ ← validate (uri a) (s3_credentials a);
    parts ← py_split (uri a) ":";
    uri_type ← item0 parts;
    Ok {| f_key := r_key r; f_partition_bytes := r_partition_bytes r;
          f_uris := r_uris r; f_inputs := options_of a;
          f_s3_credentials := s3_credentials a; f_uri_type := uri_type |}.
Proof.
  unfold get_frame. rewrite get_resolve_eq.
  destruct (is_not_None (layer_type a)); [|done].
  destruct (LayerType_of (layer_type a)) as [t|e]; simpl; [|done].
  destruct (is_not_None (partition_bytes a)); [|done].
  destruct (is_not_None (uri a)); [|done].
  simpl. by rewrite (get_check_eq a).
Qed.

Lemma get_frame_Ok a f :
  frame a = Ok f ->
  exists t s,
    LayerType_of (layer_type a) = Ok t /\ partition_bytes a <> PNone
    /\ uri a = PStr s /\ validate (uri a) (s3_credentials a) = Ok tt
    /\ f = frame_of key_name a t s.
Proof.
  rewrite get_frame_eq, get_resolve_eq.
  destruct (is_not_None (layer_type a)); [|done].
  destruct (LayerType_of (layer_type a)) as [t|e]; simpl; [|done].
  destruct (is_not_None (partition_bytes a)) eqn:Hpb; [|done].
  destruct (is_not_None (uri a)); [|done]. simpl.
  destruct (validate (uri a) (s3_credentials a)) as [[]|e]; simpl; [|done].
  destruct (uri a) as [| | |s| | | |]; simpl; try done.
  rewrite split_on_head. simpl. intros [= <-].
  exists t, s. by rewrite <- is_not_None_true.
Qed.

Lemma get_frame_text a t s :
  LayerType_of (layer_type a) = Ok t -> partition_bytes a <> PNone ->
  uri a = PStr s -> validate (uri a) (s3_credentials a) = Ok tt ->
  frame a = Ok (frame_of key_name a t s).
Proof.
  intros Ht Hpb Hu Hv. rewrite get_frame_eq, get_resolve_eq.
  rewrite (LayerType_of_not_None _ _ Ht), Ht. simpl.
  apply is_not_None_true in Hpb. rewrite Hpb, Hv, Hu. simpl.
  by rewrite split_on_head.
Qed.

(** A [uri] that is not text never gets past line 107. *)
Lemma get_frame_not_text a :
  (forall s, uri a <> PStr s) -> exists e, frame a = Raise e.
Proof.
  intros Hu. destruct (frame a) as [f|e] eqn:Hf; [|by eexists].
  apply get_frame_Ok in Hf as (t & s & _ & _ & Hs & _). by destruct (Hu s).
Qed.

(** ** The run of [get] *)

Lemma get_Raise a e w : frame a = Raise e -> run a w = (w, Raise e).
Proof. intros H. unfold get. by rewrite H. Qed.

Lemma get_trace a f w :
  frame a = Ok f ->
  exists entered,
    w_trace (run a w).1 = w_trace w ++ scope_events f entered
    /\ (entered = false -> exists e, (run a w).2 = Raise e).
Proof.
  intros H. unfold get. rewrite H. unfold with_, on_config, call_engine, on_config.
  simpl.
  destruct (cm_enter _ _) as [cfg1 [g|e]]; simpl.
  - exists true. destruct (geotiff_rdd_get _ _ _ _ _) as [cfg2 r]; simpl.
    destruct (cm_exit _ _ _) as [cfg3 [[]|e]]; simpl.
    + destruct r; simpl; rewrite <- !app_assoc; simpl; done.
    + rewrite <- !app_assoc; simpl; done.
  - exists false. simpl. eauto.
Qed.

Lemma get_trace_cases a w :
  w_trace (run a w).1 = w_trace w \/
  exists f entered, frame a = Ok f
    /\ w_trace (run a w).1 = w_trace w ++ scope_events f entered.
Proof.
  destruct (frame a) as [f|e] eqn:Hf.
  - right. destruct (get_trace a f w Hf) as (entered & Htr & _). eauto.
  - left. by rewrite (get_Raise a e w Hf).
Qed.

Lemma engine_event_frame a cfg key uris options pb :
  In (EvEngine key uris options pb) (w_trace (run a (fresh cfg)).1) ->
  exists t s,
    frame a = Ok (frame_of key_name a t s)
    /\ LayerType_of (layer_type a) = Ok t /\ partition_bytes a <> PNone
    /\ uri a = PStr s
    /\ key = key_name t false /\ uris = [PStr s]
    /\ options = options_of a /\ pb = py_str (partition_bytes a).
Proof.
  intros Hin.
  destruct (get_trace_cases a (fresh cfg)) as [Htr|(f & entered & Hf & Htr)];
    rewrite Htr in Hin; simpl in Hin; [done|].
  destruct (get_frame_Ok a f Hf) as (t & s & Ht & Hpb & Hu & _ & ->).
  exists t, s. rewrite <- Hf.
  destruct entered; simpl in Hin;
    repeat (destruct Hin as [Hin|Hin]; try discriminate); try done.
  inversion Hin. by subst.
Qed.

Lemma locals_functional a k v1 v2 :
  In (k, v1) (locals a) -> In (k, v2) (locals a) -> v1 = v2.
Proof.
  rewrite <- !list_elem_of_In.
  rewrite !(elem_of_list_to_map (M:=gmap string)) by apply locals_NoDup.
  congruence.
Qed.

(** ** The claims *)

(** The option mapping in terms of the values the parameters are bound
    to on entry to the body: the dictionary of line 89 has a key exactly
    when the parameter of that name is bound to something other than
    [None], and the dictionary the engine receives is that one without
    the four parameters passed on their own. *)
Theorem forwarded_options_exactly_supplied a cfg key uris options pb :
  In (EvEngine key uris options pb) (w_trace (run a (fresh cfg)).1) ->
  (forall name v,
      inputs_of a !! name = Some v <-> In (name, v) (locals a) /\ v <> PNone)
  /\ (forall name,
        options !! name = if bool_decide (name ∈ consumed) then None
                          else inputs_of a !! name)
  /\ (forall name v,
        options !! name = Some v <->
        In (name, v) (locals a) /\ v <> PNone /\ ~ In name consumed)
  /\ (forall name, In (name, PNone) (locals a) -> options !! name = None)
  /\ (forall name v,
        In (name, v) (locals a) -> ~ In name consumed ->
        v = PInt 0 \/ v = PStr "" -> options !! name = Some v).
Proof.
  intros Hin.
  destruct (engine_event_frame _ _ _ _ _ _ Hin) as (t & s & _ & _ & _ & _ & _ & _ & -> & _).
  assert (Hiff : forall name v,
    options_of a !! name = Some v <->
    In (name, v) (locals a) /\ v <> PNone /\ ~ In name consumed).
  { intros name v. rewrite options_of_lookup.
    case_bool_decide as Hc; rewrite list_elem_of_In in Hc.
    - split; [done|]. intros (_ & _ & Hn). by destruct Hn.
    - rewrite inputs_of_Some, list_elem_of_In. tauto. }
  split; [|split; [|split; [exact Hiff|split]]].
  - intros name v. by rewrite inputs_of_Some, list_elem_of_In.
  - apply options_of_lookup.
  - intros name Hnone. destruct (options_of a !! name) as [v|] eqn:Hv; [|done].
    apply Hiff in Hv as (Hl & Hn & _).
    by rewrite (locals_functional a name v PNone Hl Hnone) in Hn.
  - intros name v Hl Hc Hv. apply Hiff. repeat split; [done| |done].
    by destruct Hv as [-> | ->].
Qed.

(** C9: the option mapping handed to the engine has none of the keys
    [layer_type], [uri], [s3_credentials] and [partition_bytes]; the
    partition-byte count goes to the engine on its own, as its text
    form. *)
Theorem consumed_keys_not_forwarded a cfg key uris options pb :
  In (EvEngine key uris options pb) (w_trace (run a (fresh cfg)).1) ->
  options !! "layer_type" = None /\ options !! "uri" = None
  /\ options !! "s3_credentials" = None /\ options !! "partition_bytes" = None
  /\ pb = py_str (partition_bytes a)
  /\ (forall n, partition_bytes a = PInt n -> pb = str_int n).
Proof.
  intros Hin.
  destruct (engine_event_frame _ _ _ _ _ _ Hin)
    as (t & s & _ & _ & _ & _ & _ & _ & -> & ->).
  rewrite !options_of_lookup. repeat split; try done.
  by intros n ->.
Qed.


(** C10: credentials that are not [None] but falsy get past the check
    whatever the URI is: [_validate_s3_credentials] returns without
    asking [is_s3_uri], no [RuntimeError] comes out of the steps before
    the scope, and the same falsy object is what the credential scope is
    built with. *)
Theorem falsy_credentials_bypass_check a :
  s3_credentials a <> PNone -> py_truthy (s3_credentials a) = false ->
  (forall u, validate u (s3_credentials a) = Ok tt)
  /\ (forall msg, frame a <> Raise (RuntimeError msg))
  /\ (forall t s w,
        LayerType_of (layer_type a) = Ok t -> partition_bytes a <> PNone ->
        uri a = PStr s ->
        exists entered : bool,
          w_trace (run a w).1 =
            w_trace w
            ++ EvSetCredentials (s3_credentials a) (prefix_before ":" s)
               :: (if entered
                   then [EvEnter;
                         EvEngine (key_name t false) [PStr s] (options_of a)
                                  (py_str (partition_bytes a));
                         EvExit]
                   else [])).
Proof.
  intros Hnone Hfalsy.
  assert (Hv : forall u, validate u (s3_credentials a) = Ok tt).
  { intros u. unfold _validate_s3_credentials. by rewrite Hfalsy. }
  split; [exact Hv|split].
  - intros msg. rewrite get_frame_eq, get_resolve_eq, Hv.
    destruct (is_not_None (layer_type a)); [|done].
    destruct (layer_type a) as [| | |l| | |l|]; simpl; try done;
      [destruct (String.eqb l "spatial"); simpl;
         [|destruct (String.eqb l "spacetime"); simpl; [|done]]|];
      (destruct (is_not_None (partition_bytes a)); [|done]);
      (destruct (is_not_None (uri a)); [|done]); simpl;
      (destruct (uri a); simpl; try done; by rewrite split_on_head).
  - intros t s w Ht Hpb Hu.
    pose proof (get_frame_text a t s Ht Hpb Hu (Hv _)) as Hf.
    destruct (get_trace a _ w Hf) as (entered & Htr & _).
    exists entered. exact Htr.
Qed.


(** What line 107 does with a list: it asks the list object itself for
    [split], so every call with a list [uri] raises before the credential
    scope, although the docstring allows a list of paths and line 98
    prepares one for the engine. *)
Theorem list_uri_yields_no_scheme a items w :
  uri a = PList items ->
  exists e,
    frame a = Raise e /\ run a w = (w, Raise e)
    /\ (forall t,
          LayerType_of (layer_type a) = Ok t -> partition_bytes a <> PNone ->
          validate (uri a) (s3_credentials a) = Ok tt ->
          e = AttributeError "list" "split").
Proof.
  intros Hu.
  destruct (get_frame_not_text a) as [e He]; [intros s; congruence|].
  exists e. split; [done|split; [by apply get_Raise|]].
  intros t Ht Hpb Hv. revert He. rewrite get_frame_eq, get_resolve_eq.
  rewrite (LayerType_of_not_None _ _ Ht), Ht. simpl.
  apply is_not_None_true in Hpb. rewrite Hpb, Hv, Hu. simpl. congruence.
Qed.

(** C6: what [get("spacetime", ["a.tif", "b.tif"])] does. The key of the
    space-time variant and the two URIs in their order are computed, then
    line 107 asks the list for [split]: the call ends in
    [AttributeError] with nothing observed, so the engine is not called.
    (Were [DEFAULT_PARTITION_BYTES] [None], line 95 would already have
    raised [KeyError].) *)
Theorem spacetime_list_call_fails d w :
  let a := call d (PStr "spacetime") (PList [PStr "a.tif"; PStr "b.tif"]) in
  match resolve a with
  | Ok r =>
      r_key r = key_name SPACETIME false
      /\ r_uris r = [PStr "a.tif"; PStr "b.tif"]
      /\ run a w = (w, Raise (AttributeError "list" "split"))
  | Raise e =>
      DEFAULT_PARTITION_BYTES d = PNone /\ e = KeyError "partition_bytes"
      /\ run a w = (w, Raise e)
  end.
Proof.
  intros a.
  pose proof (get_frame_eq a) as Hf. revert Hf.
  rewrite get_resolve_eq. subst a. simpl.
  destruct (DEFAULT_PARTITION_BYTES d) eqn:Hpb; simpl; intros Hf;
    try (repeat split; try done; by apply get_Raise).
Qed.


(** ** The credential scope of the specification *)

Local Abbreviation run_scoped :=
  (get key_name is_s3_uri set_s3_credentials_spec geotiff_rdd_get).

Lemma restore_slot (cfg after : Config) (t : string) (c : PyVal) :
  let final := match cfg !! t with
               | Some previous => <[t := previous]> after
               | None => delete t after
               end in
  final !! t = cfg !! t
  /\ (forall k, k <> t -> final !! k = after !! k)
  /\ (after = <[t := c]> cfg -> final = cfg).
Proof.
  destruct (cfg !! t) as [p|] eqn:Hp; simpl.
  - rewrite lookup_insert_eq. split; [done|split].
    + intros k Hk. by rewrite lookup_insert_ne.
    + intros ->. rewrite insert_insert_eq. by apply insert_id.
  - rewrite lookup_delete_eq. split; [done|split].
    + intros k Hk. by rewrite lookup_delete_ne.
    + intros ->. rewrite delete_insert_eq. by apply delete_id.
Qed.

(** C2: a call that enters the credential scope leaves it exactly once,
    after the engine call and whether that call returned or raised; the
    slot the scope wrote is then as it was before the call, the scope
    touches no other slot, and when the engine leaves the configuration
    alone the whole configuration is as before. *)
Theorem credential_scope_restored a cfg :
  let out := run_scoped a (fresh cfg) in
  In EvEnter (w_trace out.1) ->
  exists f,
    frame a = Ok f
    /\ w_trace out.1 = scope_events f true
    /\ count is_enter (w_trace out.1) = 1
    /\ count is_exit (w_trace out.1) = 1
    /\ last (w_trace out.1) = Some EvExit
    /\ let seen := match f_s3_credentials f with
                   | PNone => cfg
                   | c => <[f_uri_type f := c]> cfg
                   end in
       let eng := geotiff_rdd_get (f_key f) (f_uris f) (f_inputs f)
                                  (f_partition_bytes f) seen in
       out.2 = match eng.2 with
               | Ok srdd => Ok (Build_RasterLayer (layer_type a) srdd)
               | Raise e => Raise e
               end
       /\ (f_s3_credentials f <> PNone ->
           w_config out.1 !! f_uri_type f = cfg !! f_uri_type f)
       /\ (forall k, k <> f_uri_type f -> w_config out.1 !! k = eng.1 !! k)
       /\ (eng.1 = seen -> w_config out.1 = cfg).
Proof.
  intros out Hin. subst out. revert Hin. unfold get.
  destruct (frame a) as [f|e] eqn:Hf; [|done]. intros _. exists f.
  split; [done|].
  unfold with_, call_engine, on_config, set_s3_credentials_spec, fresh. simpl.
  set (t := f_uri_type f).
  destruct (f_s3_credentials f) eqn:Hc; simpl;
    match goal with
    | |- context [geotiff_rdd_get ?k ?u ?o ?p ?c] =>
        destruct (geotiff_rdd_get k u o p c) as [after r] eqn:He
    end; simpl.
  1: destruct r; simpl; unfold scope_events; rewrite Hc; repeat split; done.
  all: destruct (restore_slot cfg after t (f_s3_credentials f)) as (H1 & H2 & H3);
    rewrite Hc in H3; revert H1 H2 H3;
    destruct (cfg !! t) as [p|]; simpl; intros H1 H2 H3;
    destruct r; simpl; unfold scope_events; rewrite Hc; auto 10.
Qed.

(** C3: when [s3_credentials] is left as [None], the call writes nothing
    to the shared configuration: the engine is called on the
    configuration of the caller as it stands, and what the call leaves
    behind is what the engine left; a call that stops earlier leaves the
    world as it was. *)
Theorem no_credentials_no_scope_mutation a cfg :
  s3_credentials a = PNone ->
  let out := run_scoped a (fresh cfg) in
  match frame a with
  | Raise e => out = (fresh cfg, Raise e)
  | Ok f =>
      let eng := geotiff_rdd_get (f_key f) (f_uris f) (f_inputs f)
                                 (f_partition_bytes f) cfg in
      f_s3_credentials f = PNone /\ w_config out.1 = eng.1
  end.
Proof.
  intros Hc out. subst out. unfold get.
  destruct (frame a) as [f|e] eqn:Hf; [|done].
  destruct (get_frame_Ok a f Hf) as (t & s & _ & _ & _ & _ & ->).
  unfold with_, call_engine, on_config, set_s3_credentials_spec, fresh. simpl.
  rewrite Hc. simpl.
  destruct (geotiff_rdd_get _ _ _ _ _) as [after r]. simpl.
  by destruct r.
Qed.

End Facts.

(** * The claims on concrete calls *)

Example split_on_uri : split_on ":" "s3://bucket/a.tif" = ["s3"; "//bucket/a.tif"].
Proof. reflexivity. Qed.

Example split_on_plain : split_on ":" "/local/a.tif" = ["/local/a.tif"].
Proof. reflexivity. Qed.

Example py_str_list :
  py_str (PList [PStr "a.tif"; PStr "b.tif"]) = "['a.tif', 'b.tif']".
Proof. reflexivity. Qed.

Example py_str_int :
  py_str (PInt 1343225) = "1343225" /\ py_str (PInt (-7)) = "-7" /\ py_str (PInt 0) = "0".
Proof. repeat split; reflexivity. Qed.

(** [get("spatial", "s3://bucket/a.tif", ..., s3_credentials=Credentials(...))]
    succeeds: one engine call inside one scope, and the configuration is
    back to what it was. *)
Example get_s3_with_credentials :
  let a := example_args (PStr "s3://bucket/a.tif") example_credentials in
  example_get engine_returns a (fresh example_config) =
    ({| w_config := example_config;
        w_trace := [EvSetCredentials example_credentials "s3"; EvEnter;
                    EvEngine "ProjectedExtent" [PStr "s3://bucket/a.tif"]
                             (options_of a) "128";
                    EvExit] |},
     Ok (Build_RasterLayer (PStr "spatial") 1%Z)).
Proof. vm_compute. reflexivity. Qed.

(** The options of that call: [0] and the empty text are there, the
    parameters at [None] and the consumed ones are not. *)
Example get_s3_options :
  let a := example_args (PStr "s3://bucket/a.tif") example_credentials in
  options_of a =
    {[ "max_tile_size" := PInt 0; "time_tag" := PStr ""; "s3_client" := PStr "default" ]}.
Proof. vm_compute. reflexivity. Qed.

(** [get("spatial", "/local/a.tif", ..., s3_credentials=Credentials(...))]
    raises the configuration error and nothing else happens. *)
Example get_local_with_credentials :
  example_get engine_returns
    (example_args (PStr "/local/a.tif") example_credentials) (fresh example_config) =
    (fresh example_config,
     Raise (RuntimeError
       ("S3 credentials were provided to geotiff.get, but an AWS S3 URI "
        +:+ "was not specified (URI: /local/a.tif)"))).
Proof. vm_compute. reflexivity. Qed.

(** ** C1 *)



(** ** C2 *)

Lemma credential_scope_restored_witness :
  let a := example_args (PStr "s3://bucket/a.tif") example_credentials in
  let out := example_get engine_raises a (fresh example_config) in
  In EvEnter (w_trace out.1)
  /\ count is_exit (w_trace out.1) = 1
  /\ last (w_trace out.1) = Some EvExit
  /\ out.2 = Raise (Foreign "Py4JJavaError" "file not found")
  /\ w_config out.1 !! "s3" = Some (PStr "ambient").
Proof.
  intros a out.
  assert (Hin : In EvEnter (w_trace out.1)) by (vm_compute; auto).
  destruct (credential_scope_restored key_name_example is_s3_uri_example
              engine_raises a example_config Hin)
    as (f & Hf & _ & _ & Hexit & Hlast & Hout & Hslot & _).
  vm_compute in Hf. injection Hf as <-.
  split; [exact Hin|]. split; [exact Hexit|]. split; [exact Hlast|].
  split; [exact Hout|]. apply Hslot. discriminate.
Defined.

(** ** C3 *)

Lemma no_credentials_no_scope_mutation_witness :
  let a := example_args (PStr "/local/a.tif") PNone in
  s3_credentials a = PNone
  /\ w_config (example_get engine_raises a (fresh example_config)).1 =
       (engine_raises "ProjectedExtent" [PStr "/local/a.tif"] (options_of a) "128"
                      example_config).1.
Proof.
  intros a. split; [reflexivity|].
  exact (proj2 (no_credentials_no_scope_mutation key_name_example is_s3_uri_example
                  engine_raises a example_config eq_refl)).
Defined.

(** ** The option mapping of a call *)

Lemma forwarded_options_witness :
  let a := example_args (PStr "s3://bucket/a.tif") example_credentials in
  let tr := w_trace (example_get engine_returns a (fresh example_config)).1 in
  In (EvEngine "ProjectedExtent" [PStr "s3://bucket/a.tif"] (options_of a) "128") tr
  /\ options_of a !! "max_tile_size" = Some (PInt 0)
  /\ options_of a !! "time_tag" = Some (PStr "")
  /\ options_of a !! "crs" = None.
Proof.
  intros a tr.
  assert (Hin : In (EvEngine "ProjectedExtent" [PStr "s3://bucket/a.tif"]
                             (options_of a) "128") tr)
    by (vm_compute; auto).
  destruct (forwarded_options_exactly_supplied key_name_example is_s3_uri_example
              set_s3_credentials_spec engine_returns a example_config _ _ _ _ Hin)
    as (_ & _ & _ & Hnone & Hfalsy).
  split; [exact Hin|]. split; [|split].
  - apply Hfalsy; [vm_compute; auto 10|vm_compute; intuition discriminate|auto].
  - apply Hfalsy; [vm_compute; auto 10|vm_compute; intuition discriminate|auto].
  - apply Hnone. vm_compute; auto 10.
Defined.

(** ** C5 *)

(** C5: the code at the list [["s3://bucket/a.tif"]], a documented form of
    [uri]. The claim has a scheme token computed for it, the text form of
    the list cut at the first colon, which would be ['s3; [get] computes
    no token: line 107 raises [AttributeError] and neither the credential
    scope nor the engine is reached. *)
Lemma list_uri_scheme_not_from_text_form :
  let a := example_args (PList [PStr "s3://bucket/a.tif"]) PNone in
  scheme_of_text_form (uri a) = Ok "['s3"
  /\ example_frame a = Raise (AttributeError "list" "split")
  /\ example_get engine_returns a (fresh ∅) =
       (fresh ∅, Raise (AttributeError "list" "split")).
Proof. repeat split; vm_compute; reflexivity. Qed.

Lemma list_uri_yields_no_scheme_witness :
  let a := example_args (PList [PStr "s3://bucket/a.tif"]) PNone in
  uri a = PList [PStr "s3://bucket/a.tif"]
  /\ exists e,
       example_frame a = Raise e
       /\ example_get engine_returns a (fresh ∅) = (fresh ∅, Raise e)
       /\ (forall t,
             LayerType_of (layer_type a) = Ok t -> partition_bytes a <> PNone ->
             _validate_s3_credentials is_s3_uri_example (uri a) (s3_credentials a) = Ok tt ->
             e = AttributeError "list" "split").
Proof.
  intros a. split; [reflexivity|].
  exact (list_uri_yields_no_scheme key_name_example is_s3_uri_example
           set_s3_credentials_spec engine_returns a _ (fresh ∅) eq_refl).
Defined.

(** ** C8 *)


(** ** C9 *)

Lemma consumed_keys_witness :
  let a := example_args (PStr "s3://bucket/a.tif") example_credentials in
  let tr := w_trace (example_get engine_returns a (fresh example_config)).1 in
  In (EvEngine "ProjectedExtent" [PStr "s3://bucket/a.tif"] (options_of a) "128") tr
  /\ options_of a !! "layer_type" = None /\ options_of a !! "uri" = None
  /\ options_of a !! "s3_credentials" = None
  /\ options_of a !! "partition_bytes" = None
  /\ "128" = py_str (partition_bytes a).
Proof.
  intros a tr.
  assert (Hin : In (EvEngine "ProjectedExtent" [PStr "s3://bucket/a.tif"]
                             (options_of a) "128") tr)
    by (vm_compute; auto).
  destruct (consumed_keys_not_forwarded key_name_example is_s3_uri_example
              set_s3_credentials_spec engine_returns a example_config _ _ _ _ Hin)
    as (H1 & H2 & H3 & H4 & H5 & _).
  auto 10.
Defined.

(** ** C10 *)

Lemma falsy_credentials_witness :
  let a := example_args (PStr "/local/a.tif") (PTuple []) in
  s3_credentials a <> PNone
  /\ py_truthy (s3_credentials a) = false
  /\ (forall u, _validate_s3_credentials is_s3_uri_example u (s3_credentials a) = Ok tt)
  /\ (forall msg, example_frame a <> Raise (RuntimeError msg))
  /\ exists entered : bool,
       w_trace (example_get engine_returns a (fresh ∅)).1 =
         EvSetCredentials (PTuple []) "/local/a.tif"
         :: (if entered
             then [EvEnter;
                   EvEngine "ProjectedExtent" [PStr "/local/a.tif"] (options_of a) "128";
                   EvExit]
             else []).
Proof.
  intros a.
  assert (Hn : s3_credentials a <> PNone) by discriminate.
  destruct (falsy_credentials_bypass_check key_name_example is_s3_uri_example
              set_s3_credentials_spec engine_returns a Hn eq_refl)
    as (Hv & Hr & Hs).
  split; [exact Hn|]. split; [reflexivity|]. split; [exact Hv|]. split; [exact Hr|].
  exact (Hs SPATIAL "/local/a.tif" (fresh ∅) eq_refl ltac:(discriminate) eq_refl).
Defined.

(** * Further properties of [get] and [_validate_s3_credentials] *)

Section More.

Context {SRDD : Type}.
Variable key_name : LayerType -> bool -> string.
Variable is_s3_uri : PyVal -> Res bool.
Variable set_s3_credentials : PyVal -> string -> ContextManager.
Variable geotiff_rdd_get :
  string -> list PyVal -> Dict -> string -> Config -> Config * Res SRDD.

Local Abbreviation validate := (_validate_s3_credentials is_s3_uri).
Local Abbreviation frame := (get_frame key_name is_s3_uri).
Local Abbreviation run := (get key_name is_s3_uri set_s3_credentials geotiff_rdd_get).

Lemma validate_Ok_iff u c :
  validate u c = Ok tt <-> py_truthy c = false \/ is_s3_uri u = Ok true.
Proof.
  unfold _validate_s3_credentials.
  destruct (py_truthy c); [|split; auto].
  destruct (is_s3_uri u) as [[]|e]; simpl; split; auto; try discriminate;
    intros [?|?]; congruence.
Qed.

(** X1: [get] gets as far as the credential scope exactly when the layer
    tag is valid, [partition_bytes] is not [None], [uri] is one text, and
    the credentials are falsy or [is_s3_uri] says [True] for the URI; the
    local variables are then those of [frame_of]. *)
Theorem get_reaches_scope_iff a f :
  frame a = Ok f <->
  exists t s,
    LayerType_of (layer_type a) = Ok t /\ partition_bytes a <> PNone
    /\ uri a = PStr s
    /\ (py_truthy (s3_credentials a) = false \/ is_s3_uri (uri a) = Ok true)
    /\ f = frame_of key_name a t s.
Proof.
  split.
  - intros Hf. destruct (get_frame_Ok _ _ _ _ Hf) as (t & s & Ht & Hpb & Hu & Hv & ->).
    exists t, s. by rewrite <- validate_Ok_iff.
  - intros (t & s & Ht & Hpb & Hu & Hv & ->).
    apply get_frame_text; try done. by apply validate_Ok_iff.
Qed.

(** X2: a call that passes [None] for [layer_type], [partition_bytes] or
    [uri] fails before the credential scope with nothing done. The error is
    the [KeyError] of the first such parameter in the order of lines 94 to
    97, because line 89 has dropped the key: [layer_type] first, then (the
    tag being valid) [partition_bytes], then [uri]. *)
Theorem None_argument_raises_KeyError a w :
  layer_type a = PNone \/ partition_bytes a = PNone \/ uri a = PNone ->
  exists e,
    run a w = (w, Raise e)
    /\ (layer_type a = PNone -> e = KeyError "layer_type")
    /\ (forall t, LayerType_of (layer_type a) = Ok t ->
          partition_bytes a = PNone -> e = KeyError "partition_bytes")
    /\ (forall t, LayerType_of (layer_type a) = Ok t ->
          partition_bytes a <> PNone -> uri a = PNone -> e = KeyError "uri").
Proof.
  intros Hnone.
  destruct (frame a) as [f|e] eqn:Hf.
  - destruct (get_frame_Ok _ _ _ _ Hf) as (t & s & Ht & Hpb & Hu & _).
    destruct Hnone as [H|[H|H]]; [rewrite H in Ht; discriminate|done|congruence].
  - exists e. split; [by apply get_Raise|]. revert Hf.
    rewrite get_frame_eq, get_resolve_eq. repeat split.
    + intros H. rewrite H in Hf. simpl in Hf. congruence.
    + intros t Ht Hpb. rewrite (LayerType_of_not_None _ _ Ht), Ht, Hpb in Hf.
      simpl in Hf. congruence.
    + intros t Ht Hpb Hu. rewrite (LayerType_of_not_None _ _ Ht), Ht, Hu in Hf.
      apply is_not_None_true in Hpb. rewrite Hpb in Hf. simpl in Hf. congruence.
Qed.


(** X4: a call that returns normally has called the engine exactly once,
    inside a scope it entered and left; its layer tag was valid,
    [partition_bytes] was not [None] and [uri] was one text. *)
Theorem returned_layer_means_one_engine_call a cfg rl :
  (run a (fresh cfg)).2 = Ok rl ->
  exists t s,
    LayerType_of (layer_type a) = Ok t /\ partition_bytes a <> PNone
    /\ uri a = PStr s
    /\ w_trace (run a (fresh cfg)).1 = scope_events (frame_of key_name a t s) true.
Proof.
  intros Hok.
  destruct (frame a) as [f|e] eqn:Hf.
  - destruct (get_frame_Ok _ _ _ _ Hf) as (t & s & Ht & Hpb & Hu & _ & ->).
    destruct (get_trace key_name is_s3_uri set_s3_credentials geotiff_rdd_get
                a _ (fresh cfg) Hf) as (entered & Htr & Hfail).
    exists t, s. split; [done|split; [done|split; [done|]]].
    destruct entered; [exact Htr|].
    destruct (Hfail eq_refl) as [e He]. congruence.
  - rewrite (get_Raise key_name is_s3_uri set_s3_credentials geotiff_rdd_get a e _ Hf)
      in Hok. discriminate.
Qed.



(** X6: the mapping handed to the engine never has a key other than the
    eight option names, so it has at most eight entries. *)
Theorem forwarded_keys_are_option_names a cfg key uris options pb :
  In (EvEngine key uris options pb) (w_trace (run a (fresh cfg)).1) ->
  (forall name, is_Some (options !! name) -> In name option_names)
  /\ (size options <= 8)%nat.
Proof.
  intros Hin.
  destruct (engine_event_frame _ _ _ _ _ _ _ _ _ _ Hin)
    as (t & s & _ & _ & _ & _ & _ & _ & -> & _).
  assert (Hdom : forall name, is_Some (options_of a !! name) -> In name option_names).
  { intros name [v Hv]. rewrite options_of_lookup in Hv.
    case_bool_decide as Hc; [done|]. apply inputs_of_Some in Hv as [Hl _].
    unfold consumed in Hc. rewrite !elem_of_cons, elem_of_nil in Hc.
    apply list_elem_of_In in Hl. simpl in Hl. unfold option_names. simpl.
    repeat (destruct Hl as [[= <- _]|Hl]; [tauto|]). done. }
  split; [exact Hdom|].
  assert (Hsub : dom (options_of a) ⊆ (list_to_set option_names : gset string)).
  { intros name Hn. apply elem_of_dom in Hn. apply elem_of_list_to_set.
    apply list_elem_of_In. by apply Hdom. }
  rewrite <- size_dom. apply subseteq_size in Hsub.
  etrans; [exact Hsub|]. by vm_compute.
Qed.

(** X7: [split] at a separator loses nothing: it always yields at least
    one piece, no piece holds the separator, and the pieces joined by the
    separator are the text again. *)
Theorem split_on_join sep s :
  split_on sep s <> []
  /\ Forall (fun piece => has_char sep piece = false) (split_on sep s)
  /\ join (String sep "") (split_on sep s) = s.
Proof.
  induction s as [|c r (Hne & Hall & Hjoin)]; simpl.
  - repeat split; [done|by repeat constructor].
  - destruct (Ascii.eqb c sep) eqn:Hc.
    + apply Ascii.eqb_eq in Hc as ->. repeat split; [done|by constructor|].
      destruct (split_on sep r) as [|h t]; [done|]. simpl in *. by rewrite Hjoin.
    + destruct (split_on sep r) as [|h t]; [done|].
      apply Forall_cons in Hall as [Hh Ht]. repeat split; [done| |].
      * constructor; [|done]. simpl. by rewrite (Ascii.eqb_sym sep c), Hc, Hh.
      * destruct t as [|h' t]; simpl in *; by rewrite <- Hjoin.
Qed.

(** X8: for a URI written as a scheme without colon, a colon and the rest,
    the scheme token that [get] hands to the credential scope is exactly
    that scheme. *)
Theorem scheme_of_uri_with_scheme a scheme rest f :
  uri a = PStr (scheme +:+ String ":" rest) ->
  has_char ":" scheme = false ->
  frame a = Ok f ->
  f_uri_type f = scheme.
Proof.
  intros Hu Hno Hf.
  destruct (get_frame_Ok _ _ _ _ Hf) as (t & s & _ & _ & Hs & _ & ->).
  rewrite Hu in Hs. injection Hs as <-. simpl. clear Hu Hf.
  induction scheme as [|c r IH]; [done|].
  change (has_char ":" (String c r)) with (Ascii.eqb ":" c || has_char ":" r) in Hno.
  apply orb_false_elim in Hno as [Hc Hr].
  change (prefix_before ":" (String c r +:+ String ":" rest))
    with (if Ascii.eqb c ":" then "" else String c (prefix_before ":" (r +:+ String ":" rest))).
  by rewrite (Ascii.eqb_sym c ":"), Hc, IH.
Qed.

(** X9: an integer [partition_bytes] reaches the engine as its decimal
    text, which reads back as the same integer; so different counts are
    handed over as different texts. *)
Theorem partition_bytes_text_reads_back a cfg key uris options pb n :
  In (EvEngine key uris options pb) (w_trace (run a (fresh cfg)).1) ->
  partition_bytes a = PInt n ->
  option_map Z.of_int (NilZero.int_of_string pb) = Some n.
Proof.
  intros Hin Hn.
  destruct (engine_event_frame _ _ _ _ _ _ _ _ _ _ Hin)
    as (t & s & _ & _ & _ & _ & _ & _ & _ & ->).
  rewrite Hn. simpl. unfold str_int.
  rewrite NilZero.isi.
  - simpl. by rewrite DecimalZ.of_to.
  - destruct n; simpl; [done| |done]. intros [= H]. by apply Unsigned.to_uint_nonnil in H.
  - destruct n; simpl; [done|done|]. intros [= H]. by apply Unsigned.to_uint_nonnil in H.
Qed.

(** X10: a [uri] that is neither [None] nor a text (a list, a number, a
    tuple) stops the call at line 107 with the [AttributeError] of its
    type, once lines 94 to 105 have passed; nothing has been done by
    then. *)
Theorem non_text_uri_raises_AttributeError a w t :
  (forall s, uri a <> PStr s) -> uri a <> PNone ->
  LayerType_of (layer_type a) = Ok t -> partition_bytes a <> PNone ->
  validate (uri a) (s3_credentials a) = Ok tt ->
  run a w = (w, Raise (AttributeError (type_name (uri a)) "split")).
Proof.
  intros Hs Hu Ht Hpb Hv. apply get_Raise.
  rewrite get_frame_eq, get_resolve_eq.
  rewrite (LayerType_of_not_None _ _ Ht), Ht. simpl.
  apply is_not_None_true in Hpb, Hu. rewrite Hpb, Hu. simpl. rewrite Hv. simpl.
  destruct (uri a); simpl; try done. by destruct (Hs s).
Qed.

End More.

(** X11: without truthy credentials [get] never consults [is_s3_uri]: the
    call is the same whatever that function would answer or raise. *)
Theorem falsy_credentials_never_consult_is_s3_uri
    {SRDD : Type} key_name (is_s3_uri1 is_s3_uri2 : PyVal -> Res bool)
    set_s3_credentials
    (geotiff_rdd_get : string -> list PyVal -> Dict -> string -> Config -> Config * Res SRDD)
    a w :
  py_truthy (s3_credentials a) = false ->
  get key_name is_s3_uri1 set_s3_credentials geotiff_rdd_get a w
  = get key_name is_s3_uri2 set_s3_credentials geotiff_rdd_get a w.
Proof.
  intros Hc. unfold get.
  assert (Hf : get_frame key_name is_s3_uri1 a = get_frame key_name is_s3_uri2 a);
    [|by rewrite Hf].
  rewrite !get_frame_eq. unfold _validate_s3_credentials. by rewrite Hc.
Qed.

(** ** The further properties on concrete calls *)

Lemma None_argument_witness :
  let a := example_call (PStr "spatial") (PStr "/local/a.tif") PNone PNone in
  (layer_type a = PNone \/ partition_bytes a = PNone \/ uri a = PNone)
  /\ example_get engine_returns a (fresh example_config)
     = (fresh example_config, Raise (KeyError "partition_bytes")).
Proof.
  intros a.
  assert (H : layer_type a = PNone \/ partition_bytes a = PNone \/ uri a = PNone)
    by (right; left; reflexivity).
  split; [exact H|].
  destruct (None_argument_raises_KeyError key_name_example is_s3_uri_example
              set_s3_credentials_spec engine_returns a (fresh example_config) H)
    as (e & Hrun & _ & Hpb & _).
  rewrite <- (Hpb SPATIAL eq_refl eq_refl). exact Hrun.
Defined.

Lemma returned_layer_witness :
  let a := example_args (PStr "s3://bucket/a.tif") example_credentials in
  let out := example_get engine_returns a (fresh example_config) in
  out.2 = Ok (Build_RasterLayer (PStr "spatial") 1%Z)
  /\ exists t s,
       LayerType_of (layer_type a) = Ok t /\ partition_bytes a <> PNone
       /\ uri a = PStr s
       /\ w_trace out.1 = scope_events (frame_of key_name_example a t s) true.
Proof.
  intros a out.
  assert (H : out.2 = Ok (Build_RasterLayer (PStr "spatial") 1%Z))
    by (vm_compute; reflexivity).
  split; [exact H|].
  exact (returned_layer_means_one_engine_call key_name_example is_s3_uri_example
           set_s3_credentials_spec engine_returns a example_config _ H).
Defined.

Lemma forwarded_keys_witness :
  let a := example_args (PStr "s3://bucket/a.tif") example_credentials in
  let tr := w_trace (example_get engine_returns a (fresh example_config)).1 in
  In (EvEngine "ProjectedExtent" [PStr "s3://bucket/a.tif"] (options_of a) "128") tr
  /\ (forall name, is_Some (options_of a !! name) -> In name option_names)
  /\ (size (options_of a) <= 8)%nat.
Proof.
  intros a tr.
  assert (Hin : In (EvEngine "ProjectedExtent" [PStr "s3://bucket/a.tif"]
                             (options_of a) "128") tr)
    by (vm_compute; auto).
  split; [exact Hin|].
  exact (forwarded_keys_are_option_names key_name_example is_s3_uri_example
           set_s3_credentials_spec engine_returns a example_config _ _ _ _ Hin).
Defined.

Lemma scheme_of_uri_witness :
  let a := example_args (PStr "s3://bucket/a.tif") example_credentials in
  let f := frame_of key_name_example a SPATIAL "s3://bucket/a.tif" in
  uri a = PStr ("s3" +:+ String ":" "//bucket/a.tif")
  /\ has_char ":" "s3" = false
  /\ example_frame a = Ok f
  /\ f_uri_type f = "s3".
Proof.
  intros a f.
  assert (Hf : example_frame a = Ok f) by (vm_compute; reflexivity).
  split; [reflexivity|]. split; [reflexivity|]. split; [exact Hf|].
  exact (scheme_of_uri_with_scheme key_name_example is_s3_uri_example
           a "s3" "//bucket/a.tif" f eq_refl eq_refl Hf).
Defined.

Lemma partition_bytes_text_witness :
  let a := example_args (PStr "s3://bucket/a.tif") example_credentials in
  let tr := w_trace (example_get engine_returns a (fresh example_config)).1 in
  In (EvEngine "ProjectedExtent" [PStr "s3://bucket/a.tif"] (options_of a) "128") tr
  /\ partition_bytes a = PInt 128
  /\ option_map Z.of_int (NilZero.int_of_string "128") = Some 128%Z.
Proof.
  intros a tr.
  assert (Hin : In (EvEngine "ProjectedExtent" [PStr "s3://bucket/a.tif"]
                             (options_of a) "128") tr)
    by (vm_compute; auto).
  split; [exact Hin|]. split; [reflexivity|].
  exact (partition_bytes_text_reads_back key_name_example is_s3_uri_example
           set_s3_credentials_spec engine_returns a example_config _ _ _ _ _
           Hin eq_refl).
Defined.

Lemma non_text_uri_witness :
  let a := example_args (PInt 5) PNone in
  (forall s, uri a <> PStr s)
  /\ uri a <> PNone
  /\ example_get engine_returns a (fresh example_config)
     = (fresh example_config, Raise (AttributeError "int" "split")).
Proof.
  intros a.
  assert (Hs : forall s, uri a <> PStr s) by (intros s; discriminate).
  assert (Hn : uri a <> PNone) by discriminate.
  assert (Hpb : partition_bytes a <> PNone) by discriminate.
  split; [exact Hs|]. split; [exact Hn|].
  exact (non_text_uri_raises_AttributeError key_name_example is_s3_uri_example
           set_s3_credentials_spec engine_returns a (fresh example_config) SPATIAL
           Hs Hn eq_refl Hpb eq_refl).
Defined.

Lemma never_consult_witness :
  let a := example_args (PStr "/local/a.tif") PNone in
  py_truthy (s3_credentials a) = false
  /\ get key_name_example is_s3_uri_example set_s3_credentials_spec engine_returns
         a (fresh example_config)
     = get key_name_example (fun _ => Raise (Foreign "TypeError" "not a text"))
           set_s3_credentials_spec engine_returns a (fresh example_config).
Proof.
  intros a. split; [reflexivity|].
  exact (falsy_credentials_never_consult_is_s3_uri key_name_example is_s3_uri_example
           (fun _ => Raise (Foreign "TypeError" "not a text"))
           set_s3_credentials_spec engine_returns a (fresh example_config) eq_refl).
Defined.

(** * The option mapping and what the caller gave *)

Local Ltac pick := repeat (first [left; reflexivity | right]).

Lemma bound_option_iff d c name v :
  In (name, v) (locals (bind d c)) /\ ~ In name consumed <->
  exists g dv,
    In (name, g) (given_options c) /\ In (name, dv) (default_options d)
    /\ v = default dv g.
Proof.
  split.
  - intros [Hin Hc]. simpl in Hin.
    repeat (destruct Hin as [[= <- <-]|Hin];
            [first [ exfalso; apply Hc; simpl; solve [pick]
                   | eexists _, _; split; [simpl; solve [pick]|];
                     split; [simpl; solve [pick]|reflexivity] ]|]).
    done.
  - intros (g & dv & Hg & Hd & ->). simpl in Hg, Hd.
    repeat (destruct Hg as [[= <- <-]|Hg];
            [repeat (destruct Hd as [Hd|Hd]; [try discriminate; injection Hd as <-|]);
             try done;
             (split; [simpl; solve [pick]|simpl; intuition discriminate])|]).
    done.
Qed.

Section Binding.

Context {SRDD : Type}.
Variable key_name : LayerType -> bool -> string.
Variable is_s3_uri : PyVal -> Res bool.
Variable set_s3_credentials : PyVal -> string -> ContextManager.
Variable geotiff_rdd_get :
  string -> list PyVal -> Dict -> string -> Config -> Config * Res SRDD.

Local Abbreviation run := (get key_name is_s3_uri set_s3_credentials geotiff_rdd_get).

(** C4, as amended: the option mapping handed to the engine has the key
    [name] with value [v] exactly when [name] is one of the eight option
    parameters and [v], the value given by the caller or else the default
    of the signature, is not [None]. So a value the caller gives, [0] and
    the empty text included, is there as given; a parameter given as
    [None], or omitted with [None] as default, is absent; and a parameter
    the caller omits is there with its default when that is not [None]. *)
Theorem forwarded_options_follow_binding d c cfg key uris options pb :
  In (EvEngine key uris options pb) (w_trace (run (bind d c) (fresh cfg)).1) ->
  (forall name v,
      options !! name = Some v <->
      v <> PNone
      /\ exists g dv,
           In (name, g) (given_options c) /\ In (name, dv) (default_options d)
           /\ v = default dv g)
  /\ (forall name v,
        In (name, Some v) (given_options c) -> v <> PNone ->
        options !! name = Some v)
  /\ (forall name dv,
        In (name, None) (given_options c) -> In (name, dv) (default_options d) ->
        options !! name = if is_not_None dv then Some dv else None)
  /\ (forall name, In (name, Some PNone) (given_options c) -> options !! name = None).
Proof.
  intros Hin.
  destruct (forwarded_options_exactly_supplied key_name is_s3_uri set_s3_credentials
              geotiff_rdd_get (bind d c) cfg key uris options pb Hin)
    as (_ & _ & Hiff & _).
  assert (Hiff' : forall name v,
    options !! name = Some v <->
    v <> PNone
    /\ exists g dv,
         In (name, g) (given_options c) /\ In (name, dv) (default_options d)
         /\ v = default dv g).
  { intros name v. rewrite Hiff, <- bound_option_iff. tauto. }
  assert (Hfun : forall name g1 g2,
    In (name, g1) (given_options c) -> In (name, g2) (given_options c) -> g1 = g2).
  { intros name g1 g2 H1 H2. simpl in H1, H2.
    repeat (destruct H1 as [[= <- <-]|H1];
            [repeat (destruct H2 as [H2|H2]; [try discriminate; by injection H2|]);
             done|]).
    done. }
  assert (Hdfun : forall name d1 d2,
    In (name, d1) (default_options d) -> In (name, d2) (default_options d) -> d1 = d2).
  { intros name d1 d2 H1 H2. simpl in H1, H2.
    repeat (destruct H1 as [[= <- <-]|H1];
            [repeat (destruct H2 as [H2|H2]; [try discriminate; by injection H2|]);
             done|]).
    done. }
  assert (Hdef : forall name g, In (name, g) (given_options c) ->
                 exists dv, In (name, dv) (default_options d)).
  { intros name g H. simpl in H.
    repeat (destruct H as [[= <- <-]|H]; [eexists; simpl; solve [pick]|]). done. }
  split; [exact Hiff'|]. split; [|split].
  - intros name v Hg Hv. apply Hiff'. split; [done|].
    destruct (Hdef _ _ Hg) as [dv Hd]. by exists (Some v), dv.
  - intros name dv Hg Hd. destruct (is_not_None dv) eqn:Hn.
    + apply Hiff'. split; [by apply is_not_None_true|]. by exists None, dv.
    + destruct (options !! name) as [v|] eqn:Hv; [|done].
      apply Hiff' in Hv as (Hv & g & dv' & Hg' & Hd' & ->).
      rewrite <- (Hfun _ _ _ Hg Hg'), <- (Hdfun _ _ _ Hd Hd') in Hv. simpl in Hv.
      apply is_not_None_true in Hv. congruence.
  - intros name Hg. destruct (options !! name) as [v|] eqn:Hv; [|done].
    apply Hiff' in Hv as (Hv & g & dv' & Hg' & Hd' & ->).
    rewrite <- (Hfun _ _ _ Hg Hg') in Hv. by simpl in Hv.
Qed.

End Binding.

(** ** C4 *)

(** C4 as stated fails. [get("spatial", "a.tif")] gives none of the option
    parameters, and yet the engine receives five keys, those whose
    default is not [None]. And a [partition_bytes] the caller does give
    is not a key of the mapping. *)
Lemma omitted_options_are_forwarded :
  let c := plain_call (PStr "spatial") (PStr "a.tif") in
  let a := bind release_defaults c in
  let tr := w_trace (example_get engine_returns a (fresh ∅)).1 in
  let b := example_args (PStr "a.tif") PNone in
  let tr' := w_trace (example_get engine_returns b (fresh ∅)).1 in
  (Forall (fun kg => kg.2 = None) (given_options c)
   /\ In (EvEngine "ProjectedExtent" [PStr "a.tif"] (options_of a) "1343225") tr
   /\ options_of a =
        {[ "max_tile_size" := PInt 256; "chunk_size" := PInt 65536;
           "time_tag" := PStr "TIFFTAG_DATETIME";
           "time_format" := PStr "yyyy:MM:dd HH:mm:ss";
           "s3_client" := PStr "default" ]})
  /\ (partition_bytes b = PInt 128
      /\ In (EvEngine "ProjectedExtent" [PStr "a.tif"] (options_of b) "128") tr'
      /\ options_of b !! "partition_bytes" = None).
Proof.
  repeat split; try (vm_compute; reflexivity); try (vm_compute; auto).
  repeat constructor.
Qed.

Lemma forwarded_options_follow_binding_witness :
  let c := {| given_layer_type := PStr "spatial"; given_uri := PStr "a.tif";
              given_crs := Some PNone; given_max_tile_size := Some (PInt 0);
              given_num_partitions := None; given_chunk_size := None;
              given_partition_bytes := None; given_time_tag := Some (PStr "");
              given_time_format := None; given_delimiter := None;
              given_s3_client := None; given_s3_credentials := None |} in
  let a := bind release_defaults c in
  let tr := w_trace (example_get engine_returns a (fresh ∅)).1 in
  In (EvEngine "ProjectedExtent" [PStr "a.tif"] (options_of a) "1343225") tr
  /\ options_of a !! "max_tile_size" = Some (PInt 0)
  /\ options_of a !! "time_tag" = Some (PStr "")
  /\ options_of a !! "chunk_size" = Some (PInt 65536)
  /\ options_of a !! "num_partitions" = None
  /\ options_of a !! "crs" = None.
Proof.
  intros c a tr.
  assert (Hin : In (EvEngine "ProjectedExtent" [PStr "a.tif"] (options_of a) "1343225") tr)
    by (vm_compute; auto).
  destruct (forwarded_options_follow_binding key_name_example is_s3_uri_example
              set_s3_credentials_spec engine_returns release_defaults c ∅ _ _ _ _ Hin)
    as (_ & Hgiven & Homitted & Hnone).
  split; [exact Hin|].
  split; [apply Hgiven; [simpl; pick|discriminate]|].
  split; [apply Hgiven; [simpl; pick|discriminate]|].
  split; [apply (Homitted "chunk_size" (PInt 65536)); simpl; pick|].
  split; [apply (Homitted "num_partitions" PNone); simpl; pick|].
  apply Hnone. simpl. pick.
Defined.
